(** * The TTS worker (workers/tts/server.py)

    A shallow embedding of the text-to-speech PyWorker: the endpoint handler
    [TTSHandler], the two plain aiohttp handlers [handle_ping] and
    [handle_healthcheck], the route table, and the [Backend] configuration.

    Python values are a small tree type, [async] functions are computations
    in a trace-and-exception monad, and the model server is an explicit
    oracle answering the requests the worker's session sends to it. *)

From Stdlib Require Import ZArith List String Bool Lia.
Import ListNotations.

Local Open Scope string_scope.
Local Open Scope list_scope.
Local Open Scope Z_scope.
#[local] Set Warnings "-register-all".

(** ** Python values *)

(** The values that travel through the worker: JSON data ([None], booleans,
    integers, strings, lists, dictionaries keyed by strings) and dataclass
    instances, given by their class name and their fields in declaration
    order.  Floating-point numbers are left out. *)
Inductive pyval : Type :=
| PNone
| PBool (b : bool)
| PInt (n : Z)
| PStr (s : string)
| PList (items : list pyval)
| PDict (items : list (string * pyval))
| PData (cls : string) (fields : list (string * pyval)).

(** Structural induction that also reaches the values stored in lists,
    dictionaries and dataclass fields. *)
Section pyval_induction.
Variable P : pyval -> Prop.
Hypothesis HNone : P PNone.
Hypothesis HBool : forall b, P (PBool b).
Hypothesis HInt : forall n, P (PInt n).
Hypothesis HStr : forall s, P (PStr s).
Hypothesis HList : forall items, Forall P items -> P (PList items).
Hypothesis HDict :
  forall items, Forall (fun kv => P (snd kv)) items -> P (PDict items).
Hypothesis HData :
  forall cls fields,
    Forall (fun kv => P (snd kv)) fields -> P (PData cls fields).

Fixpoint pyval_nested_ind (v : pyval) : P v :=
  match v with
  | PNone => HNone
  | PBool b => HBool b
  | PInt n => HInt n
  | PStr s => HStr s
  | PList items =>
      HList items
        ((fix go (l : list pyval) : Forall P l :=
            match l with
            | [] => Forall_nil _
            | x :: r => Forall_cons x (pyval_nested_ind x) (go r)
            end) items)
  | PDict items =>
      HDict items
        ((fix go (l : list (string * pyval))
            : Forall (fun kv => P (snd kv)) l :=
            match l with
            | [] => Forall_nil _
            | kv :: r =>
                Forall_cons kv (pyval_nested_ind (snd kv)) (go r)
            end) items)
  | PData cls fields =>
      HData cls fields
        ((fix go (l : list (string * pyval))
            : Forall (fun kv => P (snd kv)) l :=
            match l with
            | [] => Forall_nil _
            | kv :: r =>
                Forall_cons kv (pyval_nested_ind (snd kv)) (go r)
            end) fields)
  end.
End pyval_induction.

(** Values of the types [dataclasses] copies as they are. *)
Definition atomic (v : pyval) : bool :=
  match v with
  | PNone | PBool _ | PInt _ | PStr _ => true
  | _ => false
  end.

(** No dataclass instance anywhere inside: plain JSON data. *)
Fixpoint plain (v : pyval) : bool :=
  match v with
  | PNone | PBool _ | PInt _ | PStr _ => true
  | PList items => forallb plain items
  | PDict items => forallb (fun kv => match kv with (_, x) => plain x end) items
  | PData _ _ => false
  end.

(** ** dataclasses.asdict *)

Module dataclasses.

(** [_asdict_inner]: a dataclass instance becomes the dictionary of its
    fields, by name and in declaration order, each value converted in
    turn; lists and dictionaries are rebuilt around their converted
    elements; the atomic types are returned as they are. *)
Fixpoint asdict_inner (obj : pyval) : pyval :=
  match obj with
  | PData _ fields =>
      PDict (map (fun kv => match kv with
                            | (name, v) => (name, asdict_inner v)
                            end) fields)
  | PList items => PList (map asdict_inner items)
  | PDict items =>
      PDict (map (fun kv => match kv with
                            | (k, v) => (k, asdict_inner v)
                            end) items)
  | PNone | PBool _ | PInt _ | PStr _ => obj
  end.

(** [asdict] itself raises [TypeError] on anything that is not a
    dataclass instance. *)
Definition asdict (obj : pyval) : option pyval :=
  match obj with
  | PData _ _ => Some (asdict_inner obj)
  | _ => None
  end.

End dataclasses.

(** ** Effects of the async handlers *)

Inductive exn : Type :=
| ClientError        (* aiohttp: the exchange with the model server failed *)
| JSONError          (* aiohttp: awaiting json() raised *)
| TypeError.

(** What a handler does besides returning: the debug lines it logs and its
    exchanges with the model server. *)
Inductive event : Type :=
| LogDebug (msg : string)
| ReadJson                                  (* model_response.json() *)
| SessionGet (path : string)                (* backend.session.get(path) *)
| SessionPost (path : string) (payload : pyval).

Inductive outcome (A : Type) : Type :=
| Returned (a : A)
| Raised (e : exn).
Arguments Returned {A} a.
Arguments Raised {A} e.

(** An awaited computation: the events in the order they happened, and how
    it ended. *)
Definition Async (A : Type) : Type := (list event * outcome A)%type.

Definition ret {A} (a : A) : Async A := ([], Returned a).

Definition bind {A B} (m : Async A) (k : A -> Async B) : Async B :=
  match m with
  | (t, Returned a) => match k a with (t', r) => (t ++ t', r) end
  | (t, Raised e) => (t, Raised e)
  end.

Definition emit (e : event) : Async unit := ([e], Returned tt).
Definition raise {A} (e : exn) : Async A := ([], Raised e).

Declare Scope async_scope.
Delimit Scope async_scope with async.
Notation "x <- m ;; k" := (bind m (fun x => k))
  (at level 61, m at next level, right associativity) : async_scope.
Notation "m ;; k" := (bind m (fun _ => k))
  (at level 61, right associativity) : async_scope.
Local Open Scope async_scope.

Definition trace {A} (m : Async A) : list event := fst m.
Definition result {A} (m : Async A) : outcome A := snd m.

(** [log.debug] *)
Definition log_debug (msg : string) : Async unit := emit (LogDebug msg).

(** Does the event reach the model server? *)
Definition touches_model_server (e : event) : bool :=
  match e with
  | SessionGet _ | SessionPost _ _ => true
  | LogDebug _ | ReadJson => false
  end.

(** ** aiohttp: the upstream response and the client response *)

Module ClientResponse.

(** The model server's reply as the worker sees it: the status line, the
    raw body, and what awaiting [json()] gives.  [json] is the outcome of
    that await and nothing finer: [Some data] when it succeeds, which takes
    a JSON Content-Type and a body that decodes, and [None] when it raises,
    be it aiohttp's ContentTypeError for another Content-Type or the
    decoder's error for a body that is not JSON.  Both errors are
    [JSONError] here.  The record does not tie [json] to [content]: it
    covers every reply the model server can send, and more. *)
Record t : Type := mk {
  status : Z;
  content : string;
  json : option pyval
}.

Definition await_json (r : t) : Async pyval :=
  emit ReadJson ;;
  match json r with
  | Some data => ret data
  | None => raise JSONError
  end.

End ClientResponse.

Module web.

(** The methods aiohttp's router knows. *)
Inductive http_method : Type :=
| GET | POST | HEAD | PUT | DELETE | PATCH | OPTIONS | TRACE | CONNECT.

Record Request : Type := mkRequest {
  method : http_method;
  path : string;
  data : option pyval          (* the decoded JSON body, if there is one *)
}.

(** A response body: none, raw bytes, or the serialisation of JSON data. *)
Inductive payload : Type :=
| Empty
| Bytes (s : string)
| JsonOf (data : pyval).

Record Response : Type := mkResponse {
  status : Z;
  body : payload
}.

(** [web.Response(body=..., status=...)], with aiohttp's defaults
    [status=200] and [body=None]. *)
Definition Response_ (body : payload) (status : Z) : Response :=
  mkResponse status body.
Definition default_status : Z := 200.

(** [web.json_response(data=data)] *)
Definition json_response (data : pyval) : Response :=
  mkResponse default_status (JsonOf data).

End web.

(** ** The model server, as seen through [backend.session] *)

(** The model server is outside the worker: it is an oracle that answers a
    GET or a POST on a path with a response, or with nothing when the
    exchange fails (connection refused, reset, timeout).  [rtt] is the time
    one exchange takes. *)
Record ModelServer : Type := mkModelServer {
  on_get : string -> option ClientResponse.t;
  on_post : string -> pyval -> option ClientResponse.t;
  rtt : Z
}.

Module session.

(** [await backend.session.get(path)] *)
Definition get (ms : ModelServer) (path : string) : Async ClientResponse.t :=
  emit (SessionGet path) ;;
  match on_get ms path with
  | Some r => ret r
  | None => raise ClientError
  end.

(** [await backend.session.post(path, json=payload)] *)
Definition post (ms : ModelServer) (path : string) (payload : pyval)
  : Async ClientResponse.t :=
  emit (SessionPost path payload) ;;
  match on_post ms path payload with
  | Some r => ret r
  | None => raise ClientError
  end.

End session.

(** ** lib.data_types.EndpointHandler *)

Module EndpointHandler.

(** Modelled from the spec: the class [EndpointHandler] of [lib.data_types]
    is not part of the sources.  Section 4.5 lists what every variant
    supplies: the endpoint path, an optional healthcheck path, a payload
    validator, a request-transform, a response-transform, and a
    synthetic-payload generator; section 3 adds the configurable benchmark
    run count. *)
Record t (Payload : Type) : Type := mk {
  endpoint : string;
  healthcheck_endpoint : option string;
  validate : pyval -> option Payload;
  generate_payload_json : Payload -> option pyval;
  make_benchmark_payload : Payload;
  generate_client_response :
    web.Request -> ClientResponse.t -> Async web.Response;
  benchmark_runs : nat
}.
Arguments endpoint {Payload} _.
Arguments healthcheck_endpoint {Payload} _.
Arguments validate {Payload} _ _.
Arguments generate_payload_json {Payload} _ _.
Arguments make_benchmark_payload {Payload} _.
Arguments generate_client_response {Payload} _ _ _.
Arguments benchmark_runs {Payload} _.

End EndpointHandler.

(** ** lib.backend *)

Module Backend.

(** Modelled from the spec: [LogAction] of [lib.backend] is not part of the
    sources.  Section 3: an enumerated effect, ModelLoaded, Info or
    ModelError. *)
Inductive LogAction : Type := ModelLoaded | Info | ModelError.

(** Modelled from the spec: the readiness state of section 3, one of
    Starting, Loading, Ready, Error. *)
Inductive ReadinessState : Type := Starting | Loading | Ready | Error.

(** Modelled from the spec: how a table entry is matched against a log
    line.  The spec says "a literal or pattern to match against a log
    line"; the table of this worker holds literals, one of them a fragment
    of a line, so a literal matches the lines it occurs in. *)
Fixpoint occurs_in (literal line : string) : bool :=
  String.prefix literal line
  || match line with
     | EmptyString => false
     | String _ rest => occurs_in literal rest
     end.

(** Modelled from the spec: the LogMonitor classifies a line by scanning
    the ordered action table; "patterns are evaluated in declaration order;
    first match wins per line". *)
Fixpoint classify (table : list (LogAction * string)) (line : string)
  : option LogAction :=
  match table with
  | [] => None
  | (action, literal) :: rest =>
      if occurs_in literal line then Some action else classify rest line
  end.

(** Modelled from the spec: the effect of an action on the readiness state
    (section 3 and 4.2): ModelLoaded takes Starting and Loading to Ready,
    Info changes nothing, ModelError leads to Error from any state, and
    Error is terminal. *)
Definition apply_action (a : LogAction) (s : ReadinessState)
  : ReadinessState :=
  match s with
  | Error => Error
  | Starting | Loading =>
      match a with
      | ModelLoaded => Ready
      | Info => s
      | ModelError => Error
      end
  | Ready =>
      match a with
      | ModelLoaded | Info => Ready
      | ModelError => Error
      end
  end.

(** Modelled from the spec: the LogMonitor's step on one new log line. *)
Definition observe (table : list (LogAction * string))
  (s : ReadinessState) (line : string) : ReadinessState :=
  match classify table line with
  | Some a => apply_action a s
  | None => s
  end.

Definition observe_all (table : list (LogAction * string))
  (s : ReadinessState) (lines : list string) : ReadinessState :=
  fold_left (observe table) lines s.

(** Modelled from the spec: the concurrency policies of section 4.3. *)
Inductive Policy : Type := Unrestricted | Serialized.

Inductive Rejection : Type := NotReadyError | FatalBackendError.

(** Modelled from the spec: what [acquire] answers.  A request that has to
    wait its turn under the serialized policy is [Queued]: it has been
    admitted and proceeds when the slot is released. *)
Inductive Admission : Type :=
| Token
| Queued
| Rejected (why : Rejection).

(** Modelled from the spec: [AdmissionGate.acquire] (section 4.3 and 7):
    rejected at once when the readiness state is not yet Ready
    (NotReadyError) or is Error (FatalBackendError); once Ready, always
    granted under the unrestricted policy, and under the serialized policy
    granted when nothing is in flight and queued otherwise. *)
Definition acquire (policy : Policy) (s : ReadinessState) (in_flight : nat)
  : Admission :=
  match s with
  | Error => Rejected FatalBackendError
  | Starting | Loading => Rejected NotReadyError
  | Ready =>
      match policy with
      | Unrestricted => Token
      | Serialized =>
          match in_flight with
          | O => Token
          | S _ => Queued
          end
      end
  end.

Definition admitted (a : Admission) : bool :=
  match a with
  | Token | Queued => true
  | Rejected _ => false
  end.

(** Modelled from the spec: the counters of section 3. *)
Record MetricsState : Type := mkMetrics {
  pending : nat;
  in_flight : nat;
  latencies : list Z
}.

Definition record_latency (sample : Z) (m : MetricsState) : MetricsState :=
  mkMetrics (pending m) (in_flight m) (latencies m ++ [sample]).

(** The arguments [Backend(...)] is built with in the worker. *)
Record t (Payload : Type) : Type := mk {
  model_server_url : string;
  model_log_file : string;
  allow_parallel_requests : bool;
  benchmark_handler : EndpointHandler.t Payload;
  log_actions : list (LogAction * string)
}.
Arguments model_server_url {Payload} _.
Arguments model_log_file {Payload} _.
Arguments allow_parallel_requests {Payload} _.
Arguments benchmark_handler {Payload} _.
Arguments log_actions {Payload} _.

(** Modelled from the spec: the policy is chosen by the configuration flag
    ("for some model backends that can only handle one request at a time,
    be sure to set this to False"). *)
Definition policy {Payload} (b : t Payload) : Policy :=
  if allow_parallel_requests b then Unrestricted else Serialized.

(** The part of the backend that changes while it runs. *)
Record State : Type := mkState {
  readiness : ReadinessState;
  metrics : MetricsState
}.

(** Modelled from the spec: the client responses the backend itself
    produces (sections 4.1 and 7): a validation failure is a 400, a
    rejected admission is "service unavailable", and an upstream failure or
    any other fault is a server error. *)
Definition validation_failure : web.Response := web.Response_ web.Empty 400.
Definition service_unavailable : web.Response := web.Response_ web.Empty 503.
Definition server_error : web.Response := web.Response_ web.Empty 500.

(** Modelled from the spec: the admitted part of the request lifecycle
    (section 4.1): build the outbound payload with the handler's
    request-transform, call the model server on the handler's endpoint, and
    hand the upstream response to the handler's response-transform. *)
Definition forward {Payload} (ms : ModelServer)
  (h : EndpointHandler.t Payload) (req : web.Request) (payload : Payload)
  : Async web.Response :=
  match EndpointHandler.generate_payload_json h payload with
  | None => raise TypeError
  | Some wire =>
      model_response <- session.post ms (EndpointHandler.endpoint h) wire ;;
      EndpointHandler.generate_client_response h req model_response
  end.

(** Modelled from the spec: "no error is allowed to escape unhandled from
    the request-handling path". *)
Definition settle (m : Async web.Response) : list event * web.Response :=
  match m with
  | (t, Returned r) => (t, r)
  | (t, Raised _) => (t, server_error)
  end.

Definition enter (m : MetricsState) : MetricsState :=
  mkMetrics (pending m) (S (in_flight m)) (latencies m).
Definition leave (m : MetricsState) : MetricsState :=
  mkMetrics (pending m) (Nat.pred (in_flight m)) (latencies m).

(** Modelled from the spec: [Backend.handle] of section 4.1, for one
    request run to completion.  [payload] is what validating the raw
    payload gave.  A latency sample is recorded on every exit path; the
    time that passes is the model server's. *)
Definition handle {Payload} (b : t Payload) (ms : ModelServer)
  (h : EndpointHandler.t Payload) (req : web.Request)
  (payload : option Payload) (st : State)
  : (list event * web.Response) * State :=
  let m := metrics st in
  match payload with
  | None =>
      (([], validation_failure),
       mkState (readiness st) (record_latency 0 m))
  | Some p =>
      match acquire (policy b) (readiness st) (in_flight m) with
      | Rejected _ =>
          (([], service_unavailable),
           mkState (readiness st) (record_latency 0 m))
      | Token | Queued =>
          let out := settle (forward ms h req p) in
          (out,
           mkState (readiness st) (record_latency (rtt ms) (leave (enter m))))
      end
  end.

(** Modelled from the spec: the BenchmarkRunner of section 4.4: [n] times,
    it synthesizes a request with the benchmark handler's synthetic-payload
    generator and drives it through [handle]; the responses stay with the
    runner. *)
Fixpoint benchmark_loop {Payload} (n : nat) (b : t Payload)
  (ms : ModelServer) (st : State)
  : list (Payload * (list event * web.Response)) * State :=
  match n with
  | O => ([], st)
  | S k =>
      let h := benchmark_handler b in
      let p := EndpointHandler.make_benchmark_payload h in
      let req := web.mkRequest web.POST (EndpointHandler.endpoint h) None in
      match handle b ms h req (Some p) st with
      | (out, st1) =>
          match benchmark_loop k b ms st1 with
          | (runs, st2) => ((p, out) :: runs, st2)
          end
      end
  end.

Definition run_benchmark {Payload} (b : t Payload) (ms : ModelServer)
  (st : State) : list (Payload * (list event * web.Response)) * State :=
  benchmark_loop (EndpointHandler.benchmark_runs (benchmark_handler b))
    b ms st.

(** Modelled from the spec: [create_handler] gives the HTTP layer the
    request-handling entry point for one endpoint handler: the raw payload
    of the request is validated against the handler's payload shape and the
    request goes through [handle]. *)
Definition create_handler {Payload} (b : t Payload)
  (h : EndpointHandler.t Payload)
  : ModelServer -> web.Request -> State -> Async web.Response * State :=
  fun ms req st =>
    let payload :=
      match web.data req with
      | Some raw => EndpointHandler.validate h raw
      | None => None
      end in
    match handle b ms h req payload st with
    | ((t, r), st') => ((t, Returned r), st')
    end.

End Backend.

(** * workers/tts/server.py *)

(** What the module takes from outside the sources: the payload class
    [TTSRequest] of [.data_types] with its test instance and its validator,
    the default run count of [EndpointHandler], and the environment
    variable [MODEL_LOG]. *)
Definition TTSRequest : Type := list (string * pyval).

Record Imports : Type := mkImports {
  for_test : TTSRequest;
  from_json : pyval -> option TTSRequest;
  default_benchmark_runs : nat;
  MODEL_LOG : string
}.

(** A payload is a dataclass instance: the values of its fields, by name
    and in declaration order. *)
Definition instance (payload : TTSRequest) : pyval :=
  PData "TTSRequest" payload.

Definition MODEL_SERVER_URL : string := "http://0.0.0.0:5001".

Definition MODEL_SERVER_START_LOG_MSG : string := "infer server has started".
Definition MODEL_SERVER_ERROR_LOG_MSGS : list string :=
  [ "Exception: corrupted model file" ].

(** The handler of the [/generate] endpoint; its one field is the
    inherited [benchmark_runs]. *)
Record TTSHandler : Type := mkTTSHandler {
  benchmark_runs : nat
}.

Definition endpoint (self : TTSHandler) : string := "/generate".

Definition healthcheck_endpoint (self : TTSHandler) : option string := None.

Definition payload_cls (env : Imports) : pyval -> option TTSRequest :=
  from_json env.

Definition generate_payload_json (self : TTSHandler) (payload : TTSRequest)
  : option pyval :=
  dataclasses.asdict (instance payload).

Definition make_benchmark_payload (env : Imports) (self : TTSHandler)
  : TTSRequest :=
  for_test env.

Definition generate_client_response (self : TTSHandler)
  (client_request : web.Request) (model_response : ClientResponse.t)
  : Async web.Response :=
  let _ := client_request in
  match ClientResponse.status model_response with
  | 200 =>
      log_debug "SUCCESS" ;;
      data <- ClientResponse.await_json model_response ;;
      ret (web.json_response data)
  | code =>
      log_debug "SENDING RESPONSE: ERROR: unknown code" ;;
      ret (web.Response_ web.Empty code)
  end.

(** [TTSHandler] as an implementation of the handler interface. *)
Definition as_handler (env : Imports) (self : TTSHandler)
  : EndpointHandler.t TTSRequest :=
  EndpointHandler.mk TTSRequest
    (endpoint self)
    (healthcheck_endpoint self)
    (payload_cls env)
    (generate_payload_json self)
    (make_benchmark_payload env self)
    (generate_client_response self)
    (benchmark_runs self).

(** The double quote, for the literals that hold one. *)
Definition dquote : string := String (Ascii.ascii_of_nat 34) EmptyString.

(** The literal of the Info entry: message, colon, Download, each word
    opened by a double quote and the first one closed by one. *)
Definition DOWNLOAD_LOG_MSG : string :=
  (dquote ++ "message" ++ dquote ++ ":" ++ dquote ++ "Download")%string.

Definition backend (env : Imports) : Backend.t TTSRequest :=
  Backend.mk TTSRequest
    MODEL_SERVER_URL
    (MODEL_LOG env)
    true
    (as_handler env (mkTTSHandler 3))
    ((Backend.ModelLoaded, MODEL_SERVER_START_LOG_MSG)
       :: (Backend.Info, DOWNLOAD_LOG_MSG)
       :: map (fun error_msg => (Backend.ModelError, error_msg))
            MODEL_SERVER_ERROR_LOG_MSGS).

Definition handle_ping (_ : web.Request) : Async web.Response :=
  ret (web.Response_ (web.Bytes "pong") web.default_status).

Definition handle_healthcheck (ms : ModelServer) (_ : web.Request)
  : Async web.Response :=
  healthcheck_res <- session.get ms "/healthcheck" ;;
  ret (web.Response_ (web.Bytes (ClientResponse.content healthcheck_res))
         (ClientResponse.status healthcheck_res)).

(** A route's handler runs against the model server and the backend's
    state. *)
Definition Handler : Type :=
  ModelServer -> web.Request -> Backend.State
  -> Async web.Response * Backend.State.

(** A route definition, as [web.get] and [web.post] build it: the method,
    the path and the handler.  [web.get] has [allow_head=True] by default,
    which registers the handler for HEAD on the same path as well. *)
Record RouteDef : Type := mkRouteDef {
  route_method : web.http_method;
  route_path : string;
  route_handler : Handler;
  allow_head : bool
}.

Definition web_post (path : string) (handler : Handler) : RouteDef :=
  mkRouteDef web.POST path handler false.

Definition web_get (path : string) (handler : Handler) : RouteDef :=
  mkRouteDef web.GET path handler true.

Definition routes (env : Imports) : list RouteDef :=
  [ web_post "/generate"
      (Backend.create_handler (backend env)
         (as_handler env (mkTTSHandler (default_benchmark_runs env))));
    web_get "/ping" (fun _ req st => (handle_ping req, st));
    web_get "/healthcheck"
      (fun ms req st => (handle_healthcheck ms req, st)) ].

(** ** The running server *)

Definition method_eqb (a b : web.http_method) : bool :=
  match a, b with
  | web.GET, web.GET | web.POST, web.POST | web.HEAD, web.HEAD
  | web.PUT, web.PUT | web.DELETE, web.DELETE | web.PATCH, web.PATCH
  | web.OPTIONS, web.OPTIONS | web.TRACE, web.TRACE
  | web.CONNECT, web.CONNECT => true
  | _, _ => false
  end.

(** The methods a route definition answers. *)
Definition accepts (rd : RouteDef) (m : web.http_method) : bool :=
  method_eqb (route_method rd) m
  || (allow_head rd && method_eqb web.HEAD m).

(** aiohttp's router: the first route registered for the method and the
    path. *)
Fixpoint resolve (table : list RouteDef) (req : web.Request)
  : option Handler :=
  match table with
  | [] => None
  | rd :: rest =>
      if accepts rd (web.method req)
         && String.eqb (route_path rd) (web.path req)
      then Some (route_handler rd)
      else resolve rest req
  end.

(** Is the path that of some route, whatever the method? *)
Definition path_known (table : list RouteDef) (req : web.Request) : bool :=
  existsb (fun rd => String.eqb (route_path rd) (web.path req)) table.

(** The responses aiohttp makes up itself, by their status; the
    explanatory text it puts in their bodies is left out. *)
Definition not_found : web.Response := web.Response_ web.Empty 404.
Definition method_not_allowed : web.Response := web.Response_ web.Empty 405.
Definition internal_server_error : web.Response :=
  web.Response_ web.Empty 500.

(** The response that goes back for a request: the one the handler
    returned; aiohttp's 500 when the handler raised; aiohttp's 405 when the
    path has a route but not for the method, and its 404 when the path has
    none.  How aiohttp frames a response on the wire (no body on a HEAD)
    stays outside. *)
Definition serve (env : Imports) (ms : ModelServer) (req : web.Request)
  (st : Backend.State) : (list event * web.Response) * Backend.State :=
  match resolve (routes env) req with
  | None =>
      if path_known (routes env) req
      then (([], method_not_allowed), st)
      else (([], not_found), st)
  | Some h =>
      match h ms req st with
      | ((t, Returned r), st') => ((t, r), st')
      | ((t, Raised _), st') => ((t, internal_server_error), st')
      end
  end.

(** The worker as a whole: the backend's state and the responses that
    went out to clients. *)
Record World : Type := mkWorld {
  state : Backend.State;
  delivered : list web.Response
}.

(** What happens to a running worker: a client request arrives, the model
    server writes a log line, or the benchmark runner runs. *)
Inductive activity : Type :=
| ClientRequest (req : web.Request)
| LogLine (line : string)
| Benchmark.

Definition step (env : Imports) (ms : ModelServer) (w : World)
  (a : activity) : World :=
  match a with
  | ClientRequest req =>
      match serve env ms req (state w) with
      | ((_, r), st') => mkWorld st' (delivered w ++ [r])
      end
  | LogLine line =>
      mkWorld
        (Backend.mkState
           (Backend.observe (Backend.log_actions (backend env))
              (Backend.readiness (state w)) line)
           (Backend.metrics (state w)))
        (delivered w)
  | Benchmark =>
      match Backend.run_benchmark (backend env) ms (state w) with
      | (_, st') => mkWorld st' (delivered w)
      end
  end.

Definition run (env : Imports) (ms : ModelServer) (w : World)
  (activities : list activity) : World :=
  fold_left (step env ms) activities w.

(** A start state: nothing loaded, nothing counted, nothing sent. *)
Definition boot : World :=
  mkWorld (Backend.mkState Backend.Starting (Backend.mkMetrics 0 0 [])) [].

(** The payload [client.py] posts, with a placeholder for its text, and
    declarations to go with it. *)
Definition client_payload : TTSRequest :=
  [ ("text", PStr "test sentence"); ("voice_name", PStr "sample_female") ].

Definition client_from_json (raw : pyval) : option TTSRequest :=
  match raw with
  | PDict [ ("payload", PDict [ ("text", PStr t); ("voice_name", PStr v) ]);
            ("auth_data", _) ] =>
      Some [ ("text", PStr t); ("voice_name", PStr v) ]
  | _ => None
  end.

Definition client_env : Imports :=
  mkImports client_payload client_from_json 8%nat "/var/log/model.log".

(** ** Auxiliary definitions for the statements *)

(** The dictionary built from a list of fields. *)
Definition converted (fields : list (string * pyval))
  : list (string * pyval) :=
  map (fun kv => match kv with
                 | (name, v) => (name, dataclasses.asdict_inner v)
                 end) fields.

(** The debug line of the catch-all branch. *)
Definition unknown_code_msg : string :=
  "SENDING RESPONSE: ERROR: unknown code".

(** A model server that answers every GET with 204 and the body "up", and
    every POST with 200 and the posted payload. *)
Definition echo_server : ModelServer :=
  mkModelServer
    (fun _ => Some (ClientResponse.mk 204 "up" None))
    (fun _ payload => Some (ClientResponse.mk 200 "echo" (Some payload)))
    7.

(** The request [client.py] sends, on the route of the handler. *)
Definition client_request : web.Request :=
  web.mkRequest web.POST "/generate"
    (Some (PDict [ ("payload", PDict client_payload);
                   ("auth_data", PDict [ ("signature", PStr "dummy");
                                         ("cost", PInt 0);
                                         ("endpoint", PStr "dummy");
                                         ("reqnum", PInt 0) ]) ])).

(** ** Dictionary lookup *)

(** [d.get(key)] on a dictionary given by its items; the keys of a Python
    dictionary are distinct, so the first item of that key is the only
    one. *)
Fixpoint dict_get (key : string) (items : list (string * pyval))
  : option pyval :=
  match items with
  | [] => None
  | (k, v) :: rest => if String.eqb key k then Some v else dict_get key rest
  end.

(** A model server that cannot be reached. *)
Definition dead_server : ModelServer :=
  mkModelServer (fun _ => None) (fun _ _ => None) 0.

(** * workers/tts/client.py *)

Module client.

Definition url : string := "http://localhost:3000/predict".

Definition payload : pyval :=
  PDict
    [ ("payload",
        PDict [ ("text", PStr "8월 4일, 월요일. 테스트 문장입니다.");
                ("voice_name", PStr "sample_female") ]);
      ("auth_data",
        PDict [ ("signature", PStr "dummy");
                ("cost", PInt 0);
                ("endpoint", PStr "dummy");
                ("reqnum", PInt 0);
                ("url", PStr url) ]) ].




(** The part of a URL after the scheme separator. *)
Fixpoint after_scheme (s : string) : string :=
  match s with
  | EmptyString => EmptyString
  | String c rest =>
      if String.prefix "://" s
      then match rest with
           | String _ (String _ rest') => rest'
           | _ => EmptyString
           end
      else after_scheme rest
  end.

(** From the first slash on; the root when there is none. *)
Fixpoint from_slash (s : string) : string :=
  match s with
  | EmptyString => "/"
  | String c rest => if Ascii.eqb c (Ascii.ascii_of_nat 47) then s else from_slash rest
  end.

(** The path an HTTP client requests for a URL: what follows the host and
    the port. *)
Definition url_path (u : string) : string := from_slash (after_scheme u).

(** The request the script puts on the wire. *)
Definition request : web.Request :=
  web.mkRequest web.POST (url_path url) (Some payload).

End client.

(** * Properties *)

(** ** The monad *)

Lemma bind_ret_l {A B} (a : A) (k : A -> Async B) : bind (ret a) k = k a.
Proof. unfold bind, ret. destruct (k a) as [t r]. reflexivity. Qed.

Lemma bind_raise_l {A B} (e : exn) (k : A -> Async B) :
  bind (raise e) k = raise e.
Proof. reflexivity. Qed.

Lemma trace_bind_emit {B} (e : event) (k : unit -> Async B) :
  trace (bind (emit e) k) = e :: trace (k tt).
Proof. unfold bind, emit, trace. destruct (k tt) as [t r]. reflexivity. Qed.

(** ** dataclasses.asdict *)

Lemma map_id_on {A} (f : A -> A) (l : list A) :
  Forall (fun x => f x = x) l -> map f l = l.
Proof.
  induction 1 as [|x l Hx _ IH]; simpl; [reflexivity|].
  now rewrite Hx, IH.
Qed.

(** On plain JSON data the conversion changes nothing. *)
Lemma asdict_inner_plain (v : pyval) :
  plain v = true -> dataclasses.asdict_inner v = v.
Proof.
  induction v as [| b | n | s | items IH | items IH | cls fields IH]
    using pyval_nested_ind; simpl; intros Hp; try reflexivity.
  - f_equal. apply map_id_on.
    rewrite forallb_forall in Hp. rewrite Forall_forall in IH |- *.
    intros x Hx. apply IH; [assumption|]. now apply Hp.
  - f_equal. apply map_id_on.
    rewrite forallb_forall in Hp. rewrite Forall_forall in IH |- *.
    intros [k x] Hx. f_equal. apply (IH (k, x) Hx). now apply (Hp (k, x)).
  - discriminate.
Qed.

(** Whatever goes in, plain JSON data comes out. *)
Lemma asdict_inner_is_plain (v : pyval) :
  plain (dataclasses.asdict_inner v) = true.
Proof.
  induction v as [| b | n | s | items IH | items IH | cls fields IH]
    using pyval_nested_ind; simpl; try reflexivity.
  - rewrite forallb_forall. intros y Hy.
    apply in_map_iff in Hy. destruct Hy as [x [<- Hx]].
    rewrite Forall_forall in IH. now apply IH.
  - rewrite forallb_forall. intros [k y] Hy.
    apply in_map_iff in Hy. destruct Hy as [[k' x] [Heq Hx]].
    inversion Heq; subst. rewrite Forall_forall in IH. now apply (IH (k, x)).
  - rewrite forallb_forall. intros [k y] Hy.
    apply in_map_iff in Hy. destruct Hy as [[k' x] [Heq Hx]].
    inversion Heq; subst. rewrite Forall_forall in IH. now apply (IH (k, x)).
Qed.

Lemma converted_names (fields : list (string * pyval)) :
  map fst (converted fields) = map fst fields.
Proof.
  unfold converted. rewrite map_map. apply map_ext. now intros [k v].
Qed.

Lemma converted_plain (fields : list (string * pyval)) :
  forallb plain (map snd fields) = true -> converted fields = fields.
Proof.
  intros Hp. unfold converted. apply map_id_on.
  rewrite forallb_forall in Hp. apply Forall_forall. intros [k v] Hin.
  f_equal. apply asdict_inner_plain. apply Hp.
  change v with (snd (k, v)). now apply in_map.
Qed.

(** ** The response-transform *)

Lemma generate_client_response_200 self req content j :
  generate_client_response self req (ClientResponse.mk 200 content j)
  = match j with
    | Some data =>
        ([LogDebug "SUCCESS"; ReadJson], Returned (web.json_response data))
    | None => ([LogDebug "SUCCESS"; ReadJson], Raised JSONError)
    end.
Proof. destruct j; reflexivity. Qed.

Lemma generate_client_response_other self req r :
  ClientResponse.status r <> 200 ->
  generate_client_response self req r
  = ([LogDebug unknown_code_msg],
     Returned (web.Response_ web.Empty (ClientResponse.status r))).
Proof.
  destruct r as [code content j]. simpl. intros Hne.
  unfold generate_client_response. simpl.
  destruct code as [|p|p]; try reflexivity.
  do 8 (destruct p as [p|p|]; try reflexivity).
  contradiction.
Qed.

(** C9.  For every [TTSRequest] payload, the request-transform
    [generate_payload_json] returns the dictionary of the payload's
    dataclass fields, as [dataclasses.asdict] builds it: it always returns,
    the dictionary has the names of the fields, all of them and in their
    order, each with the field's value run through [asdict]; when the
    values are plain data the dictionary holds the fields exactly as they
    are; and equal payloads give equal outbound JSON, whichever handler
    instance is asked. *)
Theorem generate_payload_json_is_asdict :
  forall (self self' : TTSHandler) (payload : TTSRequest),
    generate_payload_json self payload
    = dataclasses.asdict (instance payload)
    /\ generate_payload_json self payload = Some (PDict (converted payload))
    /\ map fst (converted payload) = map fst payload
    /\ List.length (converted payload) = List.length payload
    /\ plain (PDict (converted payload)) = true
    /\ (forallb plain (map snd payload) = true ->
        generate_payload_json self payload = Some (PDict payload))
    /\ generate_payload_json self' payload
       = generate_payload_json self payload.
Proof.
  intros self self' payload.
  repeat split; try reflexivity.
  - apply converted_names.
  - unfold converted. apply List.length_map.
  - simpl. rewrite forallb_forall. intros [k y] Hy.
    unfold converted in Hy. apply in_map_iff in Hy.
    destruct Hy as [[k' x] [Heq _]]. inversion Heq; subst.
    apply asdict_inner_is_plain.
  - intros Hp. unfold generate_payload_json, instance. simpl.
    fold (converted payload). now rewrite converted_plain.
Qed.

Lemma generate_payload_json_is_asdict_witness :
  forallb plain (map snd client_payload) = true
  /\ generate_payload_json (mkTTSHandler 3) client_payload
     = Some (PDict [ ("text", PStr "test sentence");
                     ("voice_name", PStr "sample_female") ]).
Proof.
  split; [reflexivity|].
  destruct (generate_payload_json_is_asdict (mkTTSHandler 3) (mkTTSHandler 3)
              client_payload) as (_ & _ & _ & _ & _ & Hplain & _).
  apply Hplain. reflexivity.
Defined.

(** C1, as the code has it.  The match on [model_response.status] has a
    branch for every status value: the branch of 200, and a catch-all that
    takes every other code, unknown ones included.
    [generate_client_response] returns a client response exactly for the
    upstream responses whose status is not 200 and for those of status 200
    on which awaiting [model_response.json()] succeeds; on every response
    of status 200 on which [json()] raises, it raises as well and returns
    no response. *)
Theorem generate_client_response_defined :
  forall (self : TTSHandler) (req : web.Request) (r : ClientResponse.t),
    ((exists resp : web.Response,
        result (generate_client_response self req r) = Returned resp)
     <-> (ClientResponse.status r <> 200 \/ ClientResponse.json r <> None))
    /\ ((exists e : exn,
           result (generate_client_response self req r) = Raised e)
        <-> (ClientResponse.status r = 200 /\ ClientResponse.json r = None))
    /\ ((ClientResponse.status r = 200
         /\ exists rest : list event,
              trace (generate_client_response self req r)
              = LogDebug "SUCCESS" :: rest)
        \/ (ClientResponse.status r <> 200
            /\ trace (generate_client_response self req r)
               = [LogDebug unknown_code_msg])).
Proof.
  intros self req r.
  destruct (Z.eq_dec (ClientResponse.status r) 200) as [H200 | Hne].
  - destruct r as [code content j]. simpl in *. subst code.
    rewrite generate_client_response_200.
    destruct j as [data|]; simpl.
    + split; [split|split; [split|]].
      * intros _. right. discriminate.
      * intros _. now exists (web.json_response data).
      * intros [e He]. discriminate He.
      * intros [_ Hj]. discriminate Hj.
      * left. split; [reflexivity|]. now exists [ReadJson].
    + split; [split|split; [split|]].
      * intros [resp Hresp]. discriminate Hresp.
      * intros [Hc | Hj]; contradiction.
      * intros _. now split.
      * intros _. now exists JSONError.
      * left. split; [reflexivity|]. now exists [ReadJson].
  - rewrite generate_client_response_other by assumption. simpl.
    split; [split|split; [split|]].
    + intros _. now left.
    + intros _. eexists. reflexivity.
    + intros [e He]. discriminate He.
    + intros [H _]. contradiction.
    + right. now split.
Qed.

Lemma generate_client_response_defined_witness :
  exists resp : web.Response,
    result (generate_client_response (mkTTSHandler 3)
              (web.mkRequest web.POST "/generate" None)
              (ClientResponse.mk 418 "teapot" None))
    = Returned resp.
Proof.
  destruct (generate_client_response_defined (mkTTSHandler 3)
              (web.mkRequest web.POST "/generate" None)
              (ClientResponse.mk 418 "teapot" None)) as [[_ Hreturns] _].
  apply Hreturns. left. simpl. discriminate.
Defined.

(** C1, as the claim states it, fails: on an upstream response of status
    200 whose body is an HTML page, awaiting [model_response.json()] raises
    and no client response is returned. *)
Lemma generate_client_response_raises_on_bad_body :
  ~ (forall (self : TTSHandler) (req : web.Request) (r : ClientResponse.t),
       exists resp : web.Response,
         result (generate_client_response self req r) = Returned resp)
  /\ result (generate_client_response (mkTTSHandler 3)
               (web.mkRequest web.POST "/generate" None)
               (ClientResponse.mk 200 "<html>Bad Gateway</html>" None))
     = Raised JSONError.
Proof.
  split; [|reflexivity].
  intros H.
  destruct (H (mkTTSHandler 3) (web.mkRequest web.POST "/generate" None)
              (ClientResponse.mk 200 "<html>Bad Gateway</html>" None))
    as [resp Hresp].
  discriminate Hresp.
Qed.


(** C10.  For every upstream response whose status is not 200, the client
    response has the upstream status and no body; the upstream body is
    neither read nor forwarded: no [json()] is awaited, and the outcome is
    the same whatever the upstream body is. *)
Theorem generate_client_response_mirrors_status :
  forall (self : TTSHandler) (req : web.Request) (r : ClientResponse.t),
    ClientResponse.status r <> 200 ->
    result (generate_client_response self req r)
    = Returned (web.mkResponse (ClientResponse.status r) web.Empty)
    /\ ~ In ReadJson (trace (generate_client_response self req r))
    /\ forall (content' : string) (j' : option pyval),
         generate_client_response self req
           (ClientResponse.mk (ClientResponse.status r) content' j')
         = generate_client_response self req r.
Proof.
  intros self req r Hne.
  rewrite generate_client_response_other by assumption.
  repeat split.
  - simpl. intros [H | []]. discriminate H.
  - intros content' j'.
    now rewrite generate_client_response_other.
Qed.

Lemma generate_client_response_mirrors_status_witness :
  result (generate_client_response (mkTTSHandler 3)
            (web.mkRequest web.POST "/generate" None)
            (ClientResponse.mk 503 "overloaded" (Some (PStr "busy"))))
  = Returned (web.mkResponse 503 web.Empty).
Proof.
  apply (generate_client_response_mirrors_status (mkTTSHandler 3)
           (web.mkRequest web.POST "/generate" None)
           (ClientResponse.mk 503 "overloaded" (Some (PStr "busy")))).
  simpl. discriminate.
Defined.

(** ** The route table *)

(** The route table, resolved: POST reaches the generation handler on
    [/generate]; GET and HEAD reach the two plain handlers on their paths;
    nothing else reaches a handler. *)
Lemma resolve_routes (env : Imports) (m : web.http_method) (p : string)
  (d : option pyval) :
  resolve (routes env) (web.mkRequest m p d)
  = match m with
    | web.POST =>
        if String.eqb "/generate" p
        then Some (Backend.create_handler (backend env)
                     (as_handler env
                        (mkTTSHandler (default_benchmark_runs env))))
        else None
    | web.GET | web.HEAD =>
        if String.eqb "/ping" p
        then Some (fun _ req st => (handle_ping req, st))
        else if String.eqb "/healthcheck" p
             then Some (fun ms req st => (handle_healthcheck ms req, st))
             else None
    | _ => None
    end.
Proof.
  unfold routes, web_post, web_get.
  cbn [resolve accepts route_method route_path route_handler allow_head
       web.method web.path].
  destruct m; cbn [method_eqb orb andb];
    destruct (String.eqb "/generate" p);
    destruct (String.eqb "/ping" p);
    destruct (String.eqb "/healthcheck" p); reflexivity.
Qed.

(** Un-routed requests are answered without a handler. *)
Ltac unrouted :=
  match goal with
  | |- context [path_known ?t ?r] => destruct (path_known t r)
  end.

(** ** The plain handlers *)

(** C6.  [GET /ping] answers 200 with the body "pong" for every request,
    whatever the request carries and whatever state the backend is in, the
    Error state included; it sends nothing to the model server and leaves
    the backend's state as it is. *)
Theorem ping_always_pongs :
  forall (env : Imports) (ms : ModelServer) (st : Backend.State)
         (req : web.Request) (data : option pyval),
    handle_ping req = ([], Returned (web.mkResponse 200 (web.Bytes "pong")))
    /\ serve env ms (web.mkRequest web.GET "/ping" data) st
       = (([], web.mkResponse 200 (web.Bytes "pong")), st)
    /\ existsb touches_model_server
         (fst (fst (serve env ms (web.mkRequest web.GET "/ping" data) st)))
       = false.
Proof.
  intros env ms st req data. repeat split.
Qed.

Lemma handle_healthcheck_answered (ms : ModelServer) (req : web.Request)
  (r : ClientResponse.t) :
  on_get ms "/healthcheck" = Some r ->
  handle_healthcheck ms req
  = ([SessionGet "/healthcheck"],
     Returned (web.mkResponse (ClientResponse.status r)
                 (web.Bytes (ClientResponse.content r)))).
Proof.
  intros Hr. unfold handle_healthcheck, session.get.
  rewrite Hr. reflexivity.
Qed.

Lemma handle_healthcheck_trace (ms : ModelServer) (req : web.Request) :
  trace (handle_healthcheck ms req) = [SessionGet "/healthcheck"].
Proof.
  unfold handle_healthcheck, session.get.
  destruct (on_get ms "/healthcheck"); reflexivity.
Qed.

(** C7.  The [GET /healthcheck] path mirrors the model server's answer: the
    client response has the upstream status and the upstream body.  No
    endpoint handler takes part: the answer is the same whatever handler
    declarations the worker runs with, and the backend's state is left as
    it is. *)
Theorem healthcheck_mirrors_upstream :
  forall (env : Imports) (ms : ModelServer) (st : Backend.State)
         (data : option pyval) (r : ClientResponse.t),
    on_get ms "/healthcheck" = Some r ->
    serve env ms (web.mkRequest web.GET "/healthcheck" data) st
    = (([SessionGet "/healthcheck"],
        web.mkResponse (ClientResponse.status r)
          (web.Bytes (ClientResponse.content r))), st).
Proof.
  intros env ms st data r Hr.
  unfold serve. simpl.
  now rewrite (handle_healthcheck_answered ms _ r Hr).
Qed.

Lemma healthcheck_mirrors_upstream_witness :
  serve client_env echo_server
    (web.mkRequest web.GET "/healthcheck" None) (state boot)
  = (([SessionGet "/healthcheck"], web.mkResponse 204 (web.Bytes "up")),
     state boot).
Proof.
  apply (healthcheck_mirrors_upstream client_env echo_server (state boot)
           None (ClientResponse.mk 204 "up" None)).
  reflexivity.
Defined.

(** C2, as the code has it.  [TTSHandler] declares no healthcheck path,
    and the declaration has no say in the [GET /healthcheck] route: the
    route is registered unconditionally, so every [GET /healthcheck] is
    sent on to the model server's [/healthcheck], once and by a GET, and
    what comes back is the same whatever handler declarations the worker
    runs with. *)
Theorem healthcheck_proxied_without_declared_path :
  forall (env env' : Imports) (ms : ModelServer) (st : Backend.State)
         (self : TTSHandler) (data : option pyval),
    healthcheck_endpoint self = None
    /\ fst (fst (serve env ms (web.mkRequest web.GET "/healthcheck" data) st))
       = [SessionGet "/healthcheck"]
    /\ serve env' ms (web.mkRequest web.GET "/healthcheck" data) st
       = serve env ms (web.mkRequest web.GET "/healthcheck" data) st.
Proof.
  intros env env' ms st self data. split; [reflexivity|].
  unfold serve. rewrite !resolve_routes.
  change (String.eqb "/ping" "/healthcheck") with false.
  change (String.eqb "/healthcheck" "/healthcheck") with true.
  cbv iota. split; [|reflexivity].
  pose proof (handle_healthcheck_trace ms
                (web.mkRequest web.GET "/healthcheck" data)) as Ht.
  destruct (handle_healthcheck ms _) as [t [resp | e]]; exact Ht.
Qed.

(** C2, as the claim states it, fails: with no healthcheck path declared,
    a [GET /healthcheck] is proxied to the model server's healthcheck path
    all the same, and the client gets the model server's answer. *)
Lemma healthcheck_proxied_despite_none :
  healthcheck_endpoint (mkTTSHandler 3) = None
  /\ EndpointHandler.healthcheck_endpoint
       (Backend.benchmark_handler (backend client_env)) = None
  /\ serve client_env echo_server
       (web.mkRequest web.GET "/healthcheck" None) (state boot)
     = (([SessionGet "/healthcheck"], web.mkResponse 204 (web.Bytes "up")),
        state boot)
  /\ ~ (forall (env : Imports) (ms : ModelServer) (st : Backend.State)
               (self : TTSHandler) (data : option pyval),
          healthcheck_endpoint self = None ->
          ~ In (SessionGet "/healthcheck")
              (fst (fst (serve env ms
                           (web.mkRequest web.GET "/healthcheck" data) st)))).
Proof.
  split; [reflexivity|]. split; [reflexivity|]. split; [reflexivity|].
  intros H.
  apply (H client_env echo_server (state boot) (mkTTSHandler 3) None
           eq_refl).
  left. reflexivity.
Qed.

(** ** The backend *)

Lemma apply_action_error (a : Backend.LogAction) :
  Backend.apply_action a Backend.Error = Backend.Error.
Proof. reflexivity. Qed.

Lemma observe_error (table : list (Backend.LogAction * string))
  (line : string) :
  Backend.observe table Backend.Error line = Backend.Error.
Proof.
  unfold Backend.observe. now destruct (Backend.classify table line).
Qed.

Lemma observe_classified_error (table : list (Backend.LogAction * string))
  (s : Backend.ReadinessState) (line : string) :
  Backend.classify table line = Some Backend.ModelError ->
  Backend.observe table s line = Backend.Error.
Proof.
  intros Hc. unfold Backend.observe. rewrite Hc. now destruct s.
Qed.

(** A line is classified as ModelError by this worker's table exactly when
    the error message occurs in it and neither of the two earlier literals
    does. *)
Lemma classify_model_error (env : Imports) (line : string) :
  Backend.classify (Backend.log_actions (backend env)) line
  = Some Backend.ModelError
  <-> (Backend.occurs_in MODEL_SERVER_START_LOG_MSG line = false
       /\ Backend.occurs_in DOWNLOAD_LOG_MSG line = false
       /\ Backend.occurs_in "Exception: corrupted model file" line = true).
Proof.
  simpl.
  destruct (Backend.occurs_in MODEL_SERVER_START_LOG_MSG line);
    destruct (Backend.occurs_in DOWNLOAD_LOG_MSG line);
    destruct (Backend.occurs_in "Exception: corrupted model file" line);
    split; try discriminate; try tauto; intros (H1 & H2 & H3);
    discriminate.
Qed.

Lemma settle_trace (m : Async web.Response) :
  fst (Backend.settle m) = trace m.
Proof. now destruct m as [t [r|e]]. Qed.

(** An admitted request of the TTS handler starts with the POST of the
    payload's dictionary to [/generate]. *)
Lemma forward_posts (env : Imports) (ms : ModelServer) (self : TTSHandler)
  (req : web.Request) (payload : TTSRequest) :
  exists rest : list event,
    trace (Backend.forward ms (as_handler env self) req payload)
    = SessionPost "/generate" (PDict (converted payload)) :: rest.
Proof.
  unfold Backend.forward.
  cbn [as_handler EndpointHandler.generate_payload_json
       EndpointHandler.endpoint EndpointHandler.generate_client_response].
  change (generate_payload_json self payload)
    with (Some (PDict (converted payload))).
  cbv iota. unfold session.post, endpoint.
  destruct (on_post ms "/generate" (PDict (converted payload))) as [r|].
  - unfold bind, emit, ret.
    destruct (generate_client_response self req r) as [t [resp|e]];
      eexists; reflexivity.
  - eexists; reflexivity.
Qed.

(** Name the outcome of the call of [handle] in the goal. *)
Ltac name_handle out st1 Hh :=
  match goal with
  | |- context [Backend.handle ?b ?m ?h ?r ?q ?s] =>
      destruct (Backend.handle b m h r q s) as [out st1] eqn:Hh
  end.

Section handle_facts.
Context {Payload : Type}.
Variable b : Backend.t Payload.
Variable ms : ModelServer.

Lemma handle_readiness (h : EndpointHandler.t Payload) (req : web.Request)
  (p : option Payload) (st : Backend.State) :
  Backend.readiness (snd (Backend.handle b ms h req p st))
  = Backend.readiness st.
Proof.
  unfold Backend.handle. destruct p as [p|]; [|reflexivity].
  now destruct (Backend.acquire _ _ _).
Qed.

(** Every exit path of [handle] records one latency sample. *)
Lemma handle_samples (h : EndpointHandler.t Payload) (req : web.Request)
  (p : option Payload) (st : Backend.State) :
  List.length
    (Backend.latencies
       (Backend.metrics (snd (Backend.handle b ms h req p st))))
  = S (List.length (Backend.latencies (Backend.metrics st))).
Proof.
  unfold Backend.handle.
  destruct p as [p|]; [destruct (Backend.acquire _ _ _)|];
    simpl; rewrite List.length_app; simpl; lia.
Qed.

(** [in_flight] is back at its value when [handle] is done. *)
Lemma handle_in_flight (h : EndpointHandler.t Payload) (req : web.Request)
  (p : option Payload) (st : Backend.State) :
  Backend.in_flight (Backend.metrics (snd (Backend.handle b ms h req p st)))
  = Backend.in_flight (Backend.metrics st).
Proof.
  unfold Backend.handle.
  destruct p as [p|]; [destruct (Backend.acquire _ _ _)|]; reflexivity.
Qed.

Lemma benchmark_loop_readiness (n : nat) (st : Backend.State) :
  Backend.readiness (snd (Backend.benchmark_loop n b ms st))
  = Backend.readiness st.
Proof.
  revert st. induction n as [|k IH]; intros st; cbn [Backend.benchmark_loop]; [reflexivity|].
  name_handle out st1 Hh.
  apply (f_equal snd) in Hh. cbn [snd] in Hh.
  specialize (IH st1).
  destruct (Backend.benchmark_loop k b ms st1) as [runs st2].
  cbn [snd] in *. rewrite IH, <- Hh. apply handle_readiness.
Qed.

(** [n] runs of the loop add [n] latency samples. *)
Lemma benchmark_loop_samples (n : nat) (st : Backend.State) :
  List.length
    (Backend.latencies
       (Backend.metrics (snd (Backend.benchmark_loop n b ms st))))
  = (List.length (Backend.latencies (Backend.metrics st)) + n)%nat.
Proof.
  revert st. induction n as [|k IH]; intros st; cbn [Backend.benchmark_loop]; [simpl; lia|].
  name_handle out st1 Hh.
  apply (f_equal snd) in Hh. cbn [snd] in Hh.
  specialize (IH st1).
  destruct (Backend.benchmark_loop k b ms st1) as [runs st2].
  cbn [snd] in *. rewrite IH, <- Hh, handle_samples. lia.
Qed.

(** The loop makes [n] runs, each of the handler's synthetic payload. *)
Lemma benchmark_loop_payloads (n : nat) (st : Backend.State) :
  map fst (fst (Backend.benchmark_loop n b ms st))
  = repeat
      (EndpointHandler.make_benchmark_payload (Backend.benchmark_handler b))
      n.
Proof.
  revert st. induction n as [|k IH]; intros st; cbn [Backend.benchmark_loop]; [reflexivity|].
  name_handle out st1 Hh.
  specialize (IH st1).
  destruct (Backend.benchmark_loop k b ms st1) as [runs st2].
  cbn [fst map repeat] in *. now rewrite IH.
Qed.

End handle_facts.

Lemma serve_readiness (env : Imports) (ms : ModelServer)
  (req : web.Request) (st : Backend.State) :
  Backend.readiness (snd (serve env ms req st)) = Backend.readiness st.
Proof.
  destruct req as [m p d]. unfold serve. rewrite resolve_routes.
  assert (Hplain :
    Backend.readiness
      (snd match
             (if String.eqb "/ping" p
              then Some (fun (_ : ModelServer) (req : web.Request)
                             (st : Backend.State) => (handle_ping req, st))
              else if String.eqb "/healthcheck" p
                   then Some (fun ms req st =>
                                (handle_healthcheck ms req, st))
                   else None)
           with
           | None =>
               if path_known (routes env) (web.mkRequest m p d)
               then (([], method_not_allowed), st)
               else (([], not_found), st)
           | Some h =>
               match h ms (web.mkRequest m p d) st with
               | ((t, Returned r), st') => ((t, r), st')
               | ((t, Raised _), st') => ((t, internal_server_error), st')
               end
           end)
    = Backend.readiness st).
  { destruct (String.eqb "/ping" p); [reflexivity|].
    destruct (String.eqb "/healthcheck" p); [|now unrouted].
    now destruct (handle_healthcheck ms _) as [t [r|e]]. }
  destruct m; try exact Hplain; try (now unrouted).
  destruct (String.eqb "/generate" p); [|now unrouted].
  unfold Backend.create_handler.
  match goal with
  | |- context [Backend.handle ?b ?m ?h ?r ?q st] =>
      pose proof (handle_readiness b m h r q st) as Hr;
      destruct (Backend.handle b m h r q st) as [[t resp] st']
  end.
  exact Hr.
Qed.

Lemma step_keeps_error (env : Imports) (ms : ModelServer) (w : World)
  (a : activity) :
  Backend.readiness (state w) = Backend.Error ->
  Backend.readiness (state (step env ms w a)) = Backend.Error.
Proof.
  intros He. destruct a as [req | line |]; simpl.
  - pose proof (serve_readiness env ms req (state w)) as Hs.
    destruct (serve env ms req (state w)) as [[t r] st']. simpl in *.
    congruence.
  - rewrite He. apply observe_error.
  - unfold Backend.run_benchmark.
    pose proof (benchmark_loop_readiness (backend env) ms
                  (EndpointHandler.benchmark_runs
                     (Backend.benchmark_handler (backend env)))
                  (state w)) as Hb.
    destruct (Backend.benchmark_loop _ _ _ _) as [runs st']. simpl in *.
    congruence.
Qed.

Lemma run_keeps_error (env : Imports) (ms : ModelServer)
  (activities : list activity) (w : World) :
  Backend.readiness (state w) = Backend.Error ->
  Backend.readiness (state (run env ms w activities)) = Backend.Error.
Proof.
  revert w. induction activities as [|a rest IH]; intros w He; simpl.
  - exact He.
  - apply IH. now apply step_keeps_error.
Qed.

(** C3, as the ordered table has it.  Once the log monitor has seen a line
    that the action table classifies as ModelError (the error message "Exception: corrupted model
    file" occurs in it and it is the first entry to match), the readiness
    state is Error, and it stays Error whatever happens next, log lines,
    client requests or benchmark runs: every later [acquire], under either
    policy and whatever is in flight, is rejected with FatalBackendError,
    and the state is never Ready again. *)
Theorem model_error_is_permanent :
  forall (env : Imports) (ms : ModelServer) (w : World) (line : string)
         (later : list activity) (policy : Backend.Policy) (n : nat),
    Backend.classify (Backend.log_actions (backend env)) line
    = Some Backend.ModelError ->
    Backend.readiness (state (step env ms w (LogLine line))) = Backend.Error
    /\ Backend.readiness
         (state (run env ms (step env ms w (LogLine line)) later))
       = Backend.Error
    /\ Backend.readiness
         (state (run env ms (step env ms w (LogLine line)) later))
       <> Backend.Ready
    /\ Backend.acquire policy
         (Backend.readiness
            (state (run env ms (step env ms w (LogLine line)) later))) n
       = Backend.Rejected Backend.FatalBackendError.
Proof.
  intros env ms w line later policy n Hc.
  assert (He : Backend.readiness (state (step env ms w (LogLine line)))
               = Backend.Error).
  { cbn [step state Backend.readiness].
    now apply observe_classified_error. }
  pose proof (run_keeps_error env ms later _ He) as Hrun.
  repeat split.
  - exact He.
  - exact Hrun.
  - rewrite Hrun. discriminate.
  - rewrite Hrun. reflexivity.
Qed.

Lemma model_error_is_permanent_witness :
  Backend.classify (Backend.log_actions (backend client_env))
    "RuntimeError: Exception: corrupted model file"
  = Some Backend.ModelError
  /\ Backend.acquire Backend.Unrestricted
       (Backend.readiness
          (state
             (run client_env echo_server
                (step client_env echo_server boot
                   (LogLine "RuntimeError: Exception: corrupted model file"))
                [ LogLine MODEL_SERVER_START_LOG_MSG;
                  ClientRequest client_request;
                  Benchmark ]))) 0
     = Backend.Rejected Backend.FatalBackendError.
Proof.
  split; [reflexivity|].
  apply (model_error_is_permanent client_env echo_server boot
           "RuntimeError: Exception: corrupted model file"
           [ LogLine MODEL_SERVER_START_LOG_MSG;
             ClientRequest client_request;
             Benchmark ]
           Backend.Unrestricted 0%nat).
  reflexivity.
Defined.

(** C3, as the claim states it, fails in this model of the log monitor,
    where the first matching entry wins: a line in which the error message
    occurs after the start message matches the ModelLoaded entry first, so
    the readiness state becomes Ready and the next [acquire] is granted;
    one in which it occurs after the Download literal is an Info line and
    changes nothing. *)
Lemma model_error_line_can_be_shadowed :
  Backend.occurs_in "Exception: corrupted model file"
    "infer server has started; Exception: corrupted model file" = true
  /\ Backend.readiness
       (state (step client_env echo_server boot
                 (LogLine
                    "infer server has started; Exception: corrupted model file")))
     = Backend.Ready
  /\ Backend.acquire (Backend.policy (backend client_env))
       (Backend.readiness
          (state (step client_env echo_server boot
                    (LogLine
                       "infer server has started; Exception: corrupted model file"))))
       0
     = Backend.Token
  /\ Backend.occurs_in "Exception: corrupted model file"
       (DOWNLOAD_LOG_MSG ++ " failed: Exception: corrupted model file")%string
     = true
  /\ Backend.readiness
       (state (step client_env echo_server boot
                 (LogLine
                    (DOWNLOAD_LOG_MSG
                       ++ " failed: Exception: corrupted model file")%string)))
     = Backend.Starting
  /\ ~ (forall (env : Imports) (ms : ModelServer) (w : World)
               (line : string) (policy : Backend.Policy) (n : nat),
          Backend.occurs_in "Exception: corrupted model file" line = true ->
          Backend.acquire policy
            (Backend.readiness (state (step env ms w (LogLine line)))) n
          = Backend.Rejected Backend.FatalBackendError).
Proof.
  split; [reflexivity|]. split; [reflexivity|]. split; [reflexivity|].
  split; [reflexivity|]. split; [reflexivity|].
  intros H.
  specialize (H client_env echo_server boot
                "infer server has started; Exception: corrupted model file"
                Backend.Unrestricted 0%nat eq_refl).
  discriminate H.
Qed.

(** C5.  A log line equal to the start message "infer server has started"
    matches the ModelLoaded entry, the first of the action table; seen in
    the Starting or the Loading state it makes the readiness state Ready;
    after it [acquire] admits, and a generation request that passes
    validation is sent on to the model server's [/generate]. *)
Theorem start_line_makes_ready :
  forall (env : Imports) (ms : ModelServer) (w : World) (raw : pyval)
         (payload : TTSRequest),
    Backend.readiness (state w) = Backend.Starting
    \/ Backend.readiness (state w) = Backend.Loading ->
    from_json env raw = Some payload ->
    Backend.classify (Backend.log_actions (backend env))
      MODEL_SERVER_START_LOG_MSG
    = Some Backend.ModelLoaded
    /\ Backend.readiness
         (state (step env ms w (LogLine MODEL_SERVER_START_LOG_MSG)))
       = Backend.Ready
    /\ (forall n : nat,
          Backend.acquire (Backend.policy (backend env))
            (Backend.readiness
               (state (step env ms w (LogLine MODEL_SERVER_START_LOG_MSG))))
            n
          = Backend.Token)
    /\ (forall (policy : Backend.Policy) (n : nat),
          Backend.admitted
            (Backend.acquire policy
               (Backend.readiness
                  (state
                     (step env ms w (LogLine MODEL_SERVER_START_LOG_MSG))))
               n)
          = true)
    /\ exists rest : list event,
         fst (fst (serve env ms
                     (web.mkRequest web.POST "/generate" (Some raw))
                     (state
                        (step env ms w
                           (LogLine MODEL_SERVER_START_LOG_MSG)))))
         = SessionPost "/generate" (PDict (converted payload)) :: rest.
Proof.
  intros env ms w raw payload Hs Hv.
  assert (Hr : Backend.readiness
                 (state (step env ms w (LogLine MODEL_SERVER_START_LOG_MSG)))
               = Backend.Ready).
  { cbn [step state Backend.readiness].
    destruct Hs as [-> | ->]; reflexivity. }
  split; [reflexivity|]. split; [exact Hr|].
  split; [intros n; rewrite Hr; reflexivity|].
  split; [intros policy n; rewrite Hr; now destruct policy, n|].
  destruct (step env ms w (LogLine MODEL_SERVER_START_LOG_MSG))
    as [st1 sent]. cbn [state] in *.
  destruct st1 as [r1 m1]. cbn [Backend.readiness] in Hr. subst r1.
  destruct (forward_posts env ms (mkTTSHandler (default_benchmark_runs env))
              (web.mkRequest web.POST "/generate" (Some raw)) payload)
    as [rest Hrest].
  exists rest. rewrite <- Hrest, <- settle_trace.
  unfold serve. rewrite resolve_routes.
  change (String.eqb "/generate" "/generate") with true. cbv iota.
  unfold Backend.create_handler, Backend.handle.
  cbn [web.data as_handler EndpointHandler.validate payload_cls
       Backend.metrics Backend.readiness].
  unfold payload_cls. rewrite Hv.
  change (Backend.acquire (Backend.policy (backend env)) Backend.Ready
            (Backend.in_flight m1)) with Backend.Token.
  cbv iota.
  match goal with
  | |- context [Backend.settle ?m] => destruct (Backend.settle m) as [t r]
  end.
  reflexivity.
Qed.

Lemma start_line_makes_ready_witness :
  Backend.readiness
    (state (step client_env echo_server boot
              (LogLine MODEL_SERVER_START_LOG_MSG)))
  = Backend.Ready.
Proof.
  apply (start_line_makes_ready client_env echo_server boot
           (PDict [ ("payload", PDict client_payload);
                    ("auth_data", PNone) ])
           client_payload).
  - left. reflexivity.
  - reflexivity.
Defined.

(** C8.  The benchmark handler is [TTSHandler(benchmark_runs=3)] and its
    synthetic payload is [TTSRequest.for_test()]: a run of the benchmark
    runner makes exactly three runs, each of that payload, adds exactly
    three latency samples to the metrics, and sends nothing to any
    client. *)
Theorem benchmark_adds_three_samples :
  forall (env : Imports) (ms : ModelServer) (w : World) (self : TTSHandler),
    EndpointHandler.benchmark_runs (Backend.benchmark_handler (backend env))
    = 3%nat
    /\ make_benchmark_payload env self = for_test env
    /\ map fst (fst (Backend.run_benchmark (backend env) ms (state w)))
       = [ for_test env; for_test env; for_test env ]
    /\ List.length
         (Backend.latencies
            (Backend.metrics (state (step env ms w Benchmark))))
       = (List.length (Backend.latencies (Backend.metrics (state w))) + 3)%nat
    /\ delivered (step env ms w Benchmark) = delivered w.
Proof.
  intros env ms w self.
  split; [reflexivity|]. split; [reflexivity|].
  split; [|split].
  - unfold Backend.run_benchmark. rewrite benchmark_loop_payloads.
    reflexivity.
  - cbn [step]. unfold Backend.run_benchmark.
    pose proof (benchmark_loop_samples (backend env) ms
                  (EndpointHandler.benchmark_runs
                     (Backend.benchmark_handler (backend env)))
                  (state w)) as Hn.
    destruct (Backend.benchmark_loop _ _ _ _) as [runs st'].
    cbn [snd state] in *. exact Hn.
  - cbn [step].
    destruct (Backend.run_benchmark (backend env) ms (state w)).
    reflexivity.
Qed.

(** ** Further properties of the worker *)

(** X1.  The route table serves exactly these method-and-path pairs: POST
    on [/generate], and GET and HEAD (which [web.get] registers with GET)
    on [/ping] and on [/healthcheck].  A request resolves to no handler
    exactly when it is none of them; so a GET on [/generate], a POST on
    [/ping], any other method and any other path reach no handler. *)
Theorem routes_serve_exactly_these :
  forall (env : Imports) (req : web.Request),
    resolve (routes env) req = None
    <-> ~ ((web.method req = web.POST /\ web.path req = "/generate")
           \/ ((web.method req = web.GET \/ web.method req = web.HEAD)
               /\ web.path req = "/ping")
           \/ ((web.method req = web.GET \/ web.method req = web.HEAD)
               /\ web.path req = "/healthcheck")).
Proof.
  intros env [m p d]. rewrite resolve_routes.
  cbn [web.method web.path].
  assert (Hplain :
    forall handler_ping handler_healthcheck : Handler,
      (if String.eqb "/ping" p then Some handler_ping
       else if String.eqb "/healthcheck" p then Some handler_healthcheck
            else None) = None
      <-> ~ (p = "/ping" \/ p = "/healthcheck")).
  { intros h1 h2.
    destruct (String.eqb_spec "/ping" p) as [Hp | Hp].
    - split; [discriminate|]. intros H. exfalso. apply H. now left.
    - destruct (String.eqb_spec "/healthcheck" p) as [Hh | Hh].
      + split; [discriminate|]. intros H. exfalso. apply H. now right.
      + split; [|reflexivity]. intros _ [H | H]; congruence. }
  destruct m;
    try (split; [|reflexivity]; intros _ H;
         decompose [and or] H; discriminate).
  - rewrite Hplain. split.
    + intros Hn H. apply Hn. decompose [and or] H; try discriminate; tauto.
    + intros Hn H. apply Hn. destruct H as [H | H]; [right; left | right; right];
        (split; [now left | exact H]).
  - destruct (String.eqb_spec "/generate" p) as [Hg | Hg].
    + split; [discriminate|]. intros H. exfalso. apply H. left. now split.
    + split; [|reflexivity]. intros _ H.
      decompose [and or] H; try discriminate. congruence.
  - rewrite Hplain. split.
    + intros Hn H. apply Hn. decompose [and or] H; try discriminate; tauto.
    + intros Hn H. apply Hn. destruct H as [H | H]; [right; left | right; right];
        (split; [now right | exact H]).
Qed.

(** X2.  The script [client.py] posts to the path [/predict], and the route
    table of [server.py] has no route for it: the script's request resolves
    to no handler of the worker. *)
Theorem client_request_is_not_routed :
  forall env : Imports,
    client.url_path client.url = "/predict"
    /\ web.method client.request = web.POST
    /\ resolve (routes env) client.request = None.
Proof.
  intros env. repeat split.
Qed.

(** X3.  [handle_healthcheck] has no error handling of its own: when the
    exchange with the model server fails, it raises after its one GET and
    builds no response. *)
Theorem handle_healthcheck_upstream_failure :
  forall (ms : ModelServer) (req : web.Request),
    on_get ms "/healthcheck" = None ->
    handle_healthcheck ms req
    = ([SessionGet "/healthcheck"], Raised ClientError).
Proof.
  intros ms req Hnone. unfold handle_healthcheck, session.get.
  rewrite Hnone. reflexivity.
Qed.

Lemma handle_healthcheck_upstream_failure_witness :
  handle_healthcheck dead_server (web.mkRequest web.GET "/healthcheck" None)
  = ([SessionGet "/healthcheck"], Raised ClientError).
Proof.
  apply (handle_healthcheck_upstream_failure dead_server
           (web.mkRequest web.GET "/healthcheck" None)).
  reflexivity.
Defined.

(** X4.  Whenever [generate_client_response] returns, the client response
    carries the upstream status; and it carries a body only for an upstream
    200, the body being the decoded upstream JSON. *)
Theorem generate_client_response_passes_status :
  forall (self : TTSHandler) (req : web.Request) (r : ClientResponse.t)
         (resp : web.Response),
    result (generate_client_response self req r) = Returned resp ->
    web.status resp = ClientResponse.status r
    /\ ((ClientResponse.status r <> 200 /\ web.body resp = web.Empty)
        \/ (ClientResponse.status r = 200
            /\ exists data : pyval,
                 ClientResponse.json r = Some data
                 /\ web.body resp = web.JsonOf data)).
Proof.
  intros self req r resp Hret.
  destruct (Z.eq_dec (ClientResponse.status r) 200) as [H200 | Hne].
  - destruct r as [code content j]. simpl in *. subst code.
    rewrite generate_client_response_200 in Hret.
    destruct j as [data|]; simpl in Hret; [|discriminate Hret].
    injection Hret as <-. split; [reflexivity|].
    right. split; [reflexivity|]. now exists data.
  - rewrite generate_client_response_other in Hret by assumption.
    injection Hret as <-. split; [reflexivity|]. left. now split.
Qed.

Lemma generate_client_response_passes_status_witness :
  web.status (web.json_response (PDict [ ("audio", PStr "UklGRg") ])) = 200.
Proof.
  apply (generate_client_response_passes_status (mkTTSHandler 3)
           client_request
           (ClientResponse.mk 200 "wav" (Some (PDict [ ("audio", PStr "UklGRg") ])))
           (web.json_response (PDict [ ("audio", PStr "UklGRg") ]))).
  reflexivity.
Defined.

(** X6.  [generate_client_response] itself never calls the model server;
    it logs exactly one debug line, first thing; and it reads the upstream
    body, through [json()], exactly when the upstream status is 200. *)
Theorem generate_client_response_effects :
  forall (self : TTSHandler) (req : web.Request) (r : ClientResponse.t),
    existsb touches_model_server
      (trace (generate_client_response self req r)) = false
    /\ (exists (msg : string) (rest : list event),
          trace (generate_client_response self req r) = LogDebug msg :: rest
          /\ forall m : string, ~ In (LogDebug m) rest)
    /\ (In ReadJson (trace (generate_client_response self req r))
        <-> ClientResponse.status r = 200).
Proof.
  intros self req r.
  destruct (Z.eq_dec (ClientResponse.status r) 200) as [H200 | Hne].
  - destruct r as [code content j]. simpl in *. subst code.
    rewrite generate_client_response_200.
    destruct j as [data|]; simpl; (split; [reflexivity|]); split.
    + exists "SUCCESS", [ReadJson]. split; [reflexivity|].
      intros m [H | []]. discriminate H.
    + split; [reflexivity|]. intros _. right. now left.
    + exists "SUCCESS", [ReadJson]. split; [reflexivity|].
      intros m [H | []]. discriminate H.
    + split; [reflexivity|]. intros _. right. now left.
  - rewrite generate_client_response_other by assumption. simpl.
    split; [reflexivity|]. split.
    + exists unknown_code_msg, []. split; [reflexivity|]. intros m [].
    + split; [|contradiction]. intros [H | []]. discriminate H.
Qed.

Lemma dict_get_converted (name : string) (fields : list (string * pyval)) :
  dict_get name (converted fields)
  = option_map dataclasses.asdict_inner (dict_get name fields).
Proof.
  induction fields as [|[k v] rest IH]; simpl; [reflexivity|].
  destruct (String.eqb name k); [reflexivity|]. exact IH.
Qed.

(** X7.  Looking a name up in the dictionary [generate_payload_json]
    returns gives the payload's field of that name, converted by [asdict];
    a name that is no field of the payload is no key of the dictionary, and
    a field holding plain data is found with its value as it is. *)
Theorem generate_payload_json_lookup :
  forall (self : TTSHandler) (payload : TTSRequest) (name : string),
    exists items : list (string * pyval),
      generate_payload_json self payload = Some (PDict items)
      /\ dict_get name items
         = option_map dataclasses.asdict_inner (dict_get name payload)
      /\ (dict_get name payload = None -> dict_get name items = None)
      /\ (forall v : pyval,
            dict_get name payload = Some v -> plain v = true ->
            dict_get name items = Some v).
Proof.
  intros self payload name. exists (converted payload).
  split; [reflexivity|]. split; [apply dict_get_converted|]. split.
  - intros Hn. now rewrite dict_get_converted, Hn.
  - intros v Hv Hp. rewrite dict_get_converted, Hv. simpl.
    now rewrite asdict_inner_plain.
Qed.

Lemma generate_payload_json_lookup_witness :
  dict_get "speed" client_payload = None
  /\ dict_get "voice_name" client_payload = Some (PStr "sample_female")
  /\ exists items : list (string * pyval),
       generate_payload_json (mkTTSHandler 3) client_payload
       = Some (PDict items)
       /\ dict_get "voice_name" items = Some (PStr "sample_female").
Proof.
  split; [reflexivity|]. split; [reflexivity|].
  destruct (generate_payload_json_lookup (mkTTSHandler 3) client_payload
              "voice_name") as (items & Hjson & _ & _ & Hplain).
  exists items. split; [exact Hjson|].
  apply Hplain; reflexivity.
Defined.




